(** * myproject: abstract model mixins (core) and the ideas app

    A model of [myproject/apps/core/models.py] and
    [myproject/apps/ideas/models.py].

    The two modules are read at two levels.  The statements of each module
    are transcribed as a syntax tree, with the line on which each statement
    starts, and checked the way the Python compiler checks them before any
    statement runs.  The methods of the class statements that the compiler
    accepts are embedded as functions: exceptions are results of an error
    monad, and the pieces that live in the host framework or in files
    outside the two modules (the template loader, the site settings, the
    URL resolver and the URL splitter) are variables of the section. *)

From Stdlib Require Import String Ascii List Bool DecimalNat DecimalString.
Import ListNotations.
Open Scope string_scope.

(** ** The Python layer *)

Module Py.

(** The values that reach the code under study: [None] and [str]. *)
Inductive value : Type :=
| VNone
| VStr (s : string).

(** Truth value of an object: [None] and the empty string are false. *)
Definition truthy (v : value) : bool :=
  match v with
  | VNone => false
  | VStr EmptyString => false
  | VStr (String _ _) => true
  end.

(** [f"{v}"] *)
Definition format (v : value) : string :=
  match v with
  | VNone => "None"
  | VStr s => s
  end.

Definition type_name (v : value) : string :=
  match v with
  | VNone => "NoneType"
  | VStr _ => "str"
  end.

Inductive exn : Type :=
| SyntaxError (msg : string) (line : nat)
| TypeError (msg : string)
| NotImplementedError
| NoReverseMatch
| RecursionError.

Inductive result (A : Type) : Type :=
| Ok (a : A)
| Raise (e : exn).

Arguments Ok {A} a.
Arguments Raise {A} e.

Definition bind {A B : Type} (r : result A) (k : A -> result B) : result B :=
  match r with
  | Ok a => k a
  | Raise e => Raise e
  end.

(** [v()] for the values above: neither [None] nor a [str] is callable. *)
Definition call (v : value) : result value :=
  Raise (TypeError ("'" ++ type_name v ++ "' object is not callable")).

(** An item handed to [str.join] has to be a [str]. *)
Definition as_str (v : value) : result string :=
  match v with
  | VStr s => Ok s
  | VNone => Raise (TypeError "sequence item: expected str instance, NoneType found")
  end.

Definition newline : string := String "010"%char EmptyString.

(** [sep.join(parts)] *)
Fixpoint join (sep : string) (parts : list string) : string :=
  match parts with
  | [] => ""
  | x :: rest =>
      match rest with
      | [] => x
      | _ :: _ => x ++ sep ++ join sep rest
      end
  end.

(** [str(n)] for a non-negative integer. *)
Definition str_of_nat (n : nat) : string := NilEmpty.string_of_uint (Nat.to_uint n).

End Py.

Import Py.

Notation "x <- c1 ;; c2" := (bind c1 (fun x => c2))
  (at level 61, c1 at next level, right associativity).

(** ** The statements of a module *)

(** A statement with the line on which it starts.  Expressions are left
    out: an assignment keeps its target, a definition its name and its
    body, an import the names it binds. *)
#[warnings="-register-all"]
Inductive stmt : Type :=
| ImportFrom (line : nat) (module : string) (names : list string)
| ExprStmt (line : nat)
| Assign (line : nat) (target : string)
| RaiseStmt (line : nat)
| ReturnStmt (line : nat)
| IfStmt (line : nat) (body orelse : list stmt)
| TryStmt (line : nat) (body handler : list stmt)
| ClassDef (line : nat) (name : string) (body : list stmt)
| FunctionDef (line : nat) (name : string) (body : list stmt).

(** The kind of block a statement stands in.  [if] and [try] open no block
    of their own. *)
Inductive block : Type :=
| ModuleBlock
| ClassBlock
| FunctionBlock.

Definition check_list (f : stmt -> result unit) : list stmt -> result unit :=
  fix go (ss : list stmt) : result unit :=
    match ss with
    | [] => Ok tt
    | s :: rest => ok <- f s;; go rest
    end.

(** The check of the compiler that the two modules meet: a [return]
    statement has to stand in the block of a function.  The first offending
    statement, in the order of the source, is reported. *)
Fixpoint check (b : block) (s : stmt) {struct s} : result unit :=
  match s with
  | ReturnStmt line =>
      match b with
      | FunctionBlock => Ok tt
      | ModuleBlock | ClassBlock =>
          Raise (SyntaxError "'return' outside function" line)
      end
  | IfStmt _ body orelse =>
      ok <- check_list (check b) body;; check_list (check b) orelse
  | TryStmt _ body handler =>
      ok <- check_list (check b) body;; check_list (check b) handler
  | ClassDef _ _ body => check_list (check ClassBlock) body
  | FunctionDef _ _ body => check_list (check FunctionBlock) body
  | ImportFrom _ _ _ | ExprStmt _ | Assign _ _ | RaiseStmt _ => Ok tt
  end.

Definition compile (module : list stmt) : result unit :=
  check_list (check ModuleBlock) module.

(** ** core/models.py, statement by statement *)

(** Lines 12-66.  Everything from line 41 to line 66 is indented under
    [class TheClass(models.Model):] and belongs to the body of the class,
    the [return] of line 66 included. *)
Definition object_relation_base_factory_def : stmt :=
  FunctionDef 12 "object_relation_base_factory"
    [ ExprStmt 14;
      Assign 31 "p";
      IfStmt 32
        [ Assign 33 "p";
          Assign 34 "prefix_verbose";
          Assign 35 "limit_content_type_choices_to";
          Assign 36 "content_type_field";
          Assign 37 "object_id_field";
          Assign 38 "content_object_field" ]
        [];
      ClassDef 40 "TheClass"
        [ ClassDef 41 "Meta" [ Assign 42 "abstract" ];
          IfStmt 44
            [ IfStmt 45 [ RaiseStmt 46 ] [];
              Assign 47 "related_name" ]
            [ Assign 49 "related_name" ];
          Assign 51 "optional";
          Assign 52 "ct_verbose_name";
          Assign 53 "content_type";
          Assign 57 "fk_verbose_name";
          Assign 58 "object_id";
          Assign 61 "content_object";
          ExprStmt 62;
          ExprStmt 63;
          ExprStmt 64;
          ReturnStmt 66 ] ].

(** Lines 69-112. *)
Definition MetaTagsBase_def : stmt :=
  ClassDef 69 "MetaTagsBase"
    [ ExprStmt 70;
      Assign 74 "meta_keywords";
      Assign 76 "meta_description";
      Assign 77 "meta_author";
      Assign 78 "meta_copyright";
      ClassDef 80 "Meta" [ Assign 81 "abstract" ];
      FunctionDef 83 "get_meta_field"
        [ Assign 84 "tag";
          IfStmt 85 [ Assign 86 "tag" ] [];
          ReturnStmt 92 ];
      FunctionDef 94 "get_meta_keywords" [ ReturnStmt 95 ];
      FunctionDef 97 "get_meta_description" [ ReturnStmt 98 ];
      FunctionDef 100 "get_meta_author" [ ReturnStmt 101 ];
      FunctionDef 103 "get_meta_copyright" [ ReturnStmt 104 ];
      FunctionDef 106 "get_meta_tafs" [ ReturnStmt 107 ] ].

(** Lines 115-154. *)
Definition UrlBase_def : stmt :=
  ClassDef 115 "UrlBase"
    [ ExprStmt 116;
      ClassDef 123 "Meta" [ Assign 124 "abstract" ];
      FunctionDef 126 "get_url"
        [ IfStmt 127 [ RaiseStmt 128 ] [];
          TryStmt 130 [ Assign 131 "path" ] [ RaiseStmt 133 ];
          ReturnStmt 135 ];
      Assign 137 "get_url.dont_recurse";
      FunctionDef 139 "get_url_path"
        [ IfStmt 140 [ RaiseStmt 141 ] [];
          TryStmt 143 [ Assign 144 "url" ] [ RaiseStmt 146 ];
          Assign 148 "bits";
          ReturnStmt 149 ];
      Assign 151 "get_url_path.dont_recurse";
      FunctionDef 153 "get_absolute_url" [ ReturnStmt 154 ] ].

(** Lines 157-168. *)
Definition CreationModificationDateBase_def : stmt :=
  ClassDef 157 "CreationModificationDateBase"
    [ ExprStmt 158;
      Assign 164 "created";
      Assign 165 "modified";
      ClassDef 167 "Meta" [ Assign 168 "abstract" ] ].

Definition core_models : list stmt :=
  [ ImportFrom 1 "urllib.parse" ["urlparse"; "urlunparse"];
    ImportFrom 2 "django.conf" ["settings"];
    ImportFrom 3 "django.db" ["models"];
    ImportFrom 4 "django.utils.translation" ["_"];
    ImportFrom 5 "django.utils.safestring" ["mark_safe"];
    ImportFrom 6 "django.template.loader" ["render_to_string"];
    ImportFrom 7 "django.contrib.contenttypes.models" ["ContentType"];
    ImportFrom 8 "django.contrib.contenttypes.fields" ["GenericForeignKey"];
    ImportFrom 9 "django.core.exceptions" ["FieldError"];
    object_relation_base_factory_def;
    MetaTagsBase_def;
    UrlBase_def;
    CreationModificationDateBase_def ].

(** ** ideas/models.py, statement by statement *)

Definition core_models_name : string := "myproject.apps.core.models".

Definition ideas_models : list stmt :=
  [ ImportFrom 1 "django.db" ["models"];
    ImportFrom 2 "django.urls" ["reverse"];
    ImportFrom 3 "django.utils.translation" ["_"];
    ImportFrom 5 core_models_name ["CreationModificationDateBase"];
    ImportFrom 6 core_models_name ["generic_relation"];
    Assign 9 "FavoriteObjectBase";
    Assign 12 "OwnerBase";
    ClassDef 23 "Like"
      [ ClassDef 24 "Meta"
          [ Assign 25 "verbose_name"; Assign 26 "verbose_name_plural" ];
        FunctionDef 28 "__str__" [ ReturnStmt 29 ] ];
    ClassDef 34 "Idea"
      [ Assign 35 "title";
        Assign 36 "content";
        ClassDef 38 "Meta"
          [ Assign 39 "verbose_name"; Assign 40 "verbose_name_plural" ];
        FunctionDef 42 "__str__" [ ReturnStmt 43 ];
        FunctionDef 45 "get_url_path" [ ReturnStmt 46 ] ] ].

(** ** A sample environment

    Concrete stand-ins for the imported pieces, used where a statement is
    evaluated on explicit inputs. *)

Fixpoint context_get (key : string) (context : list (string * value)) : value :=
  match context with
  | [] => VNone
  | (k, v) :: rest => if (k =? key)%string then v else context_get key rest
  end.

(** A template that prints the two variables of the context as a meta
    element. *)
Definition sample_render_to_string (template : string)
  (context : list (string * value)) : result string :=
  Ok ("<meta name='" ++ format (context_get "name" context)
        ++ "' content='" ++ format (context_get "content" context) ++ "'>").

Definition sample_WEBSITE_URL : string := "https://example.com".

(** A URL configuration with the single route [ideas/<idea_id>/], named
    [idea_details]. *)
Definition sample_reverse (viewname : string) (kwargs : list (string * string))
  : result string :=
  match kwargs with
  | [(key, v)] =>
      if ((viewname =? "idea_details") && (key =? "idea_id"))%string
      then Ok ("/ideas/" ++ v ++ "/")
      else Raise NoReverseMatch
  | _ => Raise NoReverseMatch
  end.

Section Models.

(** ** What the two modules import *)

(** Importing a module that is not part of the repository (the framework
    and the standard library). *)
Variable import_external : string -> result unit.

(** What running the statement that starts on a given line does, beyond
    binding the names it defines. *)
Variable run : nat -> result unit.

(** [render_to_string(template_name, context)]; the template
    [core/includes/meta_field.html] is not part of the two modules. *)
Variable render_to_string : string -> list (string * value) -> result string.

(** [settings.WEBSITE_URL] *)
Variable WEBSITE_URL : string.

(** [urlunparse(("", "") + urlparse(url)[2:])]: the URL without its scheme
    and network location. *)
Variable strip_scheme_and_netloc : string -> string.

(** [reverse(viewname, kwargs=...)] of the URL configuration. *)
Variable reverse : string -> list (string * string) -> result string.

(** ** Loading a module *)

(** Running one statement at the top of a module: the names it binds.  An
    import loads the module it names first; what any other statement does
    when it runs is [run]. *)
Definition exec (importer : string -> result unit) (s : stmt)
  : result (list string) :=
  match s with
  | ImportFrom _ module names => ok <- importer module;; Ok names
  | Assign line target => ok <- run line;; Ok [target]
  | ClassDef line name _ => ok <- run line;; Ok [name]
  | FunctionDef line name _ => ok <- run line;; Ok [name]
  | ExprStmt line | RaiseStmt line | ReturnStmt line
  | IfStmt line _ _ | TryStmt line _ _ => ok <- run line;; Ok []
  end.

Fixpoint exec_all (importer : string -> result unit) (ss : list stmt)
  : result (list string) :=
  match ss with
  | [] => Ok []
  | s :: rest =>
      names <- exec importer s;;
      more <- exec_all importer rest;;
      Ok (names ++ more)%list
  end.

(** A module is compiled as a whole before its first statement runs. *)
Definition load (importer : string -> result unit) (module : list stmt)
  : result (list string) :=
  ok <- compile module;; exec_all importer module.

(** [import myproject.apps.core.models]: the names the module binds. *)
Definition load_core_models : result (list string) :=
  load import_external core_models.

(** The imports of [ideas/models.py]: lines 5 and 6 load
    [core/models.py]. *)
Definition import_from_ideas (module : string) : result unit :=
  if (module =? core_models_name)%string
  then names <- load_core_models;; Ok tt
  else import_external module.

(** [import myproject.apps.ideas.models] *)
Definition load_ideas_models : result (list string) :=
  load import_from_ideas ideas_models.

(** ** core/models.py: [MetaTagsBase] *)

Record MetaTagsBase : Type := {
  meta_keywords : string;
  meta_description : string;
  meta_author : string;
  meta_copyright : string
}.

(** [mark_safe] flags a string as safe for output and keeps its text. *)
Definition mark_safe (s : string) : string := s.

Definition get_meta_field (self : MetaTagsBase) (name content : value)
  : result string :=
  tag <- (if truthy name && truthy content then
            render_to_string "core/includes/meta_field.html"
                             [("name", name); ("content", content)]
          else Ok "");;
  Ok (mark_safe tag).

Definition get_meta_keywords (self : MetaTagsBase) : result string :=
  get_meta_field self (VStr "keywords") (VStr (meta_keywords self)).

Definition get_meta_description (self : MetaTagsBase) : result string :=
  get_meta_field self (VStr "description") (VStr (meta_description self)).

Definition get_meta_author (self : MetaTagsBase) : result string :=
  get_meta_field self (VStr "author") (VStr (meta_author self)).

Definition get_meta_copyright (self : MetaTagsBase) : result string :=
  get_meta_field self (VStr "copyright") (VStr (meta_copyright self)).

(** The third item of the tuple is [self.meta_author()]: the attribute
    itself, called. *)
Definition get_meta_tafs (self : MetaTagsBase) : result string :=
  k <- get_meta_keywords self;;
  d <- get_meta_description self;;
  a <- call (VStr (meta_author self));;
  c <- get_meta_copyright self;;
  a <- as_str a;;
  Ok (mark_safe (join newline [k; d; a; c])).

(** ** core/models.py: [UrlBase] *)

(** A class that extends [UrlBase], by the base cases it defines itself.
    [None] leaves the method to the mixin. *)
Record UrlClass (Self : Type) : Type := {
  def_get_url : option (Self -> result string);
  def_get_url_path : option (Self -> result string)
}.

#[global] Arguments def_get_url {Self} _.
#[global] Arguments def_get_url_path {Self} _.

(** [hasattr(self.m, "dont_recurse")].  The attribute is set on the two
    functions of the mixin (lines 137 and 151); a method that a class
    defines itself is a plain function without it. *)
Definition hasattr_dont_recurse {Self : Type}
  (m : option (Self -> result string)) : bool :=
  match m with
  | None => true
  | Some _ => false
  end.

(** [UrlBase.get_url] and [UrlBase.get_url_path].  [fuel] is the depth of
    the call stack that is left for [get_absolute_url] and the two methods
    of the mixin, each of which takes one frame of it; running out of it is
    [RecursionError].  A method that a class defines itself is not
    charged. *)
Fixpoint get_url {Self : Type} (fuel : nat) (cls : UrlClass Self) (self : Self)
  {struct fuel} : result string :=
  match fuel with
  | O => Raise RecursionError
  | S fuel' =>
      if hasattr_dont_recurse (def_get_url_path cls) then Raise NotImplementedError
      else
        path <- match def_get_url_path cls with
                | Some f => f self
                | None => get_url_path fuel' cls self
                end;;
        Ok (WEBSITE_URL ++ path)
  end
with get_url_path {Self : Type} (fuel : nat) (cls : UrlClass Self) (self : Self)
  {struct fuel} : result string :=
  match fuel with
  | O => Raise RecursionError
  | S fuel' =>
      if hasattr_dont_recurse (def_get_url cls) then Raise NotImplementedError
      else
        url <- match def_get_url cls with
               | Some f => f self
               | None => get_url fuel' cls self
               end;;
        Ok (strip_scheme_and_netloc url)
  end.

(** [self.get_url()] and [self.get_url_path()]: the method of the class if
    it defines one, the one of the mixin otherwise. *)
Definition self_get_url {Self : Type} (fuel : nat) (cls : UrlClass Self)
  (self : Self) : result string :=
  match def_get_url cls with
  | Some f => f self
  | None => get_url fuel cls self
  end.

Definition self_get_url_path {Self : Type} (fuel : nat) (cls : UrlClass Self)
  (self : Self) : result string :=
  match def_get_url_path cls with
  | Some f => f self
  | None => get_url_path fuel cls self
  end.

Definition get_absolute_url {Self : Type} (fuel : nat) (cls : UrlClass Self)
  (self : Self) : result string :=
  match fuel with
  | O => Raise RecursionError
  | S fuel' => self_get_url fuel' cls self
  end.

(** ** ideas/models.py: [Idea] *)

(** The part of an [Idea] that [get_url_path] reads: the primary key, [None]
    until the record is stored. *)
Record Idea : Type := {
  pk : option nat
}.

Definition str_pk (self : Idea) : string :=
  match pk self with
  | Some n => str_of_nat n
  | None => "None"
  end.

(** [Idea.get_url_path].  In the source [Idea] lists
    [CreationModificationDateBase] as its only base. *)
Definition Idea_get_url_path (self : Idea) : result string :=
  reverse "idea_details" [("idea_id", str_pk self)].

(** A class that extends [UrlBase] and defines the path base case the way
    [Idea] does. *)
Definition path_only_class : UrlClass Idea :=
  {| def_get_url := None; def_get_url_path := Some Idea_get_url_path |}.

(** A class that extends [UrlBase] and defines neither base case. *)
Definition bare_class (Self : Type) : UrlClass Self :=
  {| def_get_url := None; def_get_url_path := None |}.

(** ** Named inputs *)

(** An instance with its four attributes blank. *)
Definition blank_tags : MetaTagsBase :=
  {| meta_keywords := ""; meta_description := "";
     meta_author := ""; meta_copyright := "" |}.

(** An instance with [meta_keywords = "a,b"] and nothing else. *)
Definition keywords_only_tags : MetaTagsBase :=
  {| meta_keywords := "a,b"; meta_description := "";
     meta_author := ""; meta_copyright := "" |}.

(** An instance with [meta_author = "Jane"] and nothing else. *)
Definition author_only_tags : MetaTagsBase :=
  {| meta_keywords := ""; meta_description := "";
     meta_author := "Jane"; meta_copyright := "" |}.

(** ** Compiling and loading *)

(** The three class statements of [core/models.py] pass the check, and so
    does [ideas/models.py]: the one statement that the compiler rejects is
    the definition of the factory. *)
Lemma class_statements_compile :
  compile [MetaTagsBase_def; UrlBase_def; CreationModificationDateBase_def] = Ok tt.
Proof. reflexivity. Qed.

Lemma ideas_models_compiles : compile ideas_models = Ok tt.
Proof. reflexivity. Qed.

(** A [return] at the end of a class body is rejected wherever the class
    statement stands, provided the statements in front of it pass. *)
Lemma return_in_class_body_is_rejected
  (b : block) (line : nat) (name : string) (front : list stmt) (ret : nat) :
  check_list (check ClassBlock) front = Ok tt ->
  check b (ClassDef line name (front ++ [ReturnStmt ret]))
    = Raise (SyntaxError "'return' outside function" ret).
Proof.
  intros Hfront. simpl.
  induction front as [|s front IH]; simpl in *; [reflexivity|].
  destruct (check ClassBlock s) as [[]|e]; simpl in *; [|discriminate].
  now apply IH.
Qed.

(** The module as a whole is rejected with the error of its first offending
    statement. *)
Lemma core_models_is_rejected :
  compile core_models = Raise (SyntaxError "'return' outside function" 66).
Proof. reflexivity. Qed.

(** C1: no call of [object_relation_base_factory] produces a schema
    fragment, with or without a prefix, because the definition of the
    factory is rejected when the module is compiled: line 66,
    [return TheClass], is a statement of the body of [class TheClass], and
    a [return] outside the body of a function is a syntax error. *)
Theorem factory_definition_is_rejected :
  check ModuleBlock object_relation_base_factory_def
    = Raise (SyntaxError "'return' outside function" 66).
Proof.
  unfold object_relation_base_factory_def. simpl.
  exact (return_in_class_body_is_rejected FunctionBlock 40 "TheClass"
           [ ClassDef 41 "Meta" [ Assign 42 "abstract" ];
             IfStmt 44
               [ IfStmt 45 [ RaiseStmt 46 ] [];
                 Assign 47 "related_name" ]
               [ Assign 49 "related_name" ];
             Assign 51 "optional";
             Assign 52 "ct_verbose_name";
             Assign 53 "content_type";
             Assign 57 "fk_verbose_name";
             Assign 58 "object_id";
             Assign 61 "content_object";
             ExprStmt 62;
             ExprStmt 63;
             ExprStmt 64 ] 66 eq_refl).
Qed.

(** C7: at schema-definition time, which is the import of
    [core/models.py], the outcome is the syntax error of line 66, whatever
    the statements of the module would do when run; the check of lines
    44-46 that raises [FieldError] is never reached. *)
Theorem core_models_load_fails :
  load_core_models = Raise (SyntaxError "'return' outside function" 66).
Proof. unfold load_core_models, load. now rewrite core_models_is_rejected. Qed.

(** C2: the two fragments of [Like] do not come into being.  With the
    framework importable, loading [ideas/models.py] ends on line 5, the
    first import from [core/models.py], with the syntax error of that
    module; lines 9-23, which call the factory and define [Like], do not
    run. *)
Theorem ideas_models_load_fails :
  import_external "django.db" = Ok tt ->
  import_external "django.urls" = Ok tt ->
  import_external "django.utils.translation" = Ok tt ->
  load_ideas_models = Raise (SyntaxError "'return' outside function" 66).
Proof.
  intros H1 H2 H3. unfold load_ideas_models, load.
  rewrite ideas_models_compiles. cbn [bind].
  unfold ideas_models. cbn [exec_all exec].
  unfold import_from_ideas at 1 2 3. simpl String.eqb. cbn iota.
  rewrite H1, H2, H3. cbn [bind].
  unfold import_from_ideas at 1. rewrite String.eqb_refl.
  unfold load_core_models, load. rewrite core_models_is_rejected. reflexivity.
Qed.

Lemma bind_Ok_mark_safe (r : result string) :
  (tag <- r;; Ok (mark_safe tag)) = r.
Proof. destruct r; reflexivity. Qed.

(** ** Meta tags *)

Lemma get_meta_field_blank_content (self : MetaTagsBase) (name : value) :
  get_meta_field self name (VStr "") = Ok "".
Proof. unfold get_meta_field. destruct (truthy name); reflexivity. Qed.

Lemma get_meta_field_rendered (self : MetaTagsBase) (name content : value) :
  truthy name = true -> truthy content = true ->
  get_meta_field self name content =
    render_to_string "core/includes/meta_field.html"
                     [("name", name); ("content", content)].
Proof.
  intros Hn Hc. unfold get_meta_field. rewrite Hn, Hc. apply bind_Ok_mark_safe.
Qed.

(** Whatever the first two renderers return, the aggregate ends in an
    exception. *)
Lemma get_meta_tafs_never_returns (self : MetaTagsBase) :
  exists e, get_meta_tafs self = Raise e.
Proof.
  unfold get_meta_tafs.
  destruct (get_meta_keywords self) as [k|e]; simpl; [|now exists e].
  destruct (get_meta_description self) as [d|e]; simpl; [|now exists e].
  now eexists.
Qed.

(** C3: the aggregate renderer does not call [get_meta_author].  Its third
    item is [self.meta_author()], a call of the attribute itself; the
    attribute is a string, so the call raises [TypeError] and no instance
    gets its four fragments joined. *)
Theorem get_meta_tafs_calls_the_author_attribute :
  get_meta_tafs author_only_tags = Raise (TypeError "'str' object is not callable") /\
  get_meta_author author_only_tags =
    render_to_string "core/includes/meta_field.html"
                     [("name", VStr "author"); ("content", VStr "Jane")] /\
  (forall self, exists e, get_meta_tafs self = Raise e).
Proof.
  split; [reflexivity|]. split.
  - unfold get_meta_author. now apply get_meta_field_rendered.
  - apply get_meta_tafs_never_returns.
Qed.

(** C4: the aggregate renderer returns neither the empty string for an
    instance with all four attributes blank nor a string with one fragment
    for an instance with only [meta_keywords = "a,b"].  On the first it
    raises the [TypeError] of [self.meta_author()]; on the second it
    renders the keywords fragment from the template and then raises the
    same [TypeError] (or the exception of the template, if that raises). *)
Theorem get_meta_tafs_blank_and_keywords_only_raise :
  get_meta_tafs blank_tags = Raise (TypeError "'str' object is not callable") /\
  get_meta_tafs keywords_only_tags =
    (fragment <- render_to_string "core/includes/meta_field.html"
                   [("name", VStr "keywords"); ("content", VStr "a,b")];;
     Raise (TypeError "'str' object is not callable")).
Proof.
  split; [reflexivity|].
  unfold get_meta_tafs, get_meta_keywords.
  rewrite get_meta_field_rendered by reflexivity.
  destruct (render_to_string _ _); reflexivity.
Qed.

(** C10: [get_meta_field] returns the empty string for every name that is
    [None] or empty, whatever the content; a fragment that is not empty
    comes from a call whose name and content are both non-blank. *)
Theorem get_meta_field_needs_name_and_content
  (self : MetaTagsBase) (name content : value) :
  (truthy name = false -> get_meta_field self name content = Ok "") /\
  (forall tag, get_meta_field self name content = Ok tag -> tag <> "" ->
               truthy name = true /\ truthy content = true).
Proof.
  split.
  - intros Hn. unfold get_meta_field. rewrite Hn. reflexivity.
  - intros tag H Hne. unfold get_meta_field in H.
    destruct (truthy name), (truthy content); simpl in H;
      try (injection H as <-; now contradiction Hne).
    now split.
Qed.

(** ** Canonical URLs *)

Lemma get_url_guard {Self : Type} (fuel : nat) (cls : UrlClass Self) (self : Self) :
  def_get_url_path cls = None ->
  get_url (S fuel) cls self = Raise NotImplementedError.
Proof. intros H. simpl. now rewrite H. Qed.

Lemma get_url_path_guard {Self : Type} (fuel : nat) (cls : UrlClass Self) (self : Self) :
  def_get_url cls = None ->
  get_url_path (S fuel) cls self = Raise NotImplementedError.
Proof. intros H. simpl. now rewrite H. Qed.

(** C5: for a class that defines neither [get_url] nor [get_url_path],
    [get_absolute_url()] and [get_url_path()] raise [NotImplementedError] as
    soon as the stack has room for the calls (two frames for the first, one
    for the second); the guard is met in the first mixin method entered, so
    the result does not depend on the depth that is left and is never
    [RecursionError]. *)
Theorem neither_base_case_raises_not_implemented
  {Self : Type} (fuel : nat) (cls : UrlClass Self) (self : Self) :
  def_get_url cls = None ->
  def_get_url_path cls = None ->
  get_absolute_url (S (S fuel)) cls self = Raise NotImplementedError /\
  self_get_url_path (S fuel) cls self = Raise NotImplementedError.
Proof.
  intros Hu Hp. split.
  - unfold get_absolute_url, self_get_url. rewrite Hu. now apply get_url_guard.
  - unfold self_get_url_path. rewrite Hp. now apply get_url_path_guard.
Qed.

(** C6: for a class that defines only [get_url_path], [get_absolute_url()]
    is [settings.WEBSITE_URL] followed by the path that [get_url_path]
    returns, whenever the stack has room for the two mixin methods on the
    way to it. *)
Theorem path_base_case_gives_absolute_url
  {Self : Type} (fuel : nat) (cls : UrlClass Self) (self : Self)
  (f : Self -> result string) (path : string) :
  def_get_url cls = None ->
  def_get_url_path cls = Some f ->
  f self = Ok path ->
  get_absolute_url (S (S fuel)) cls self = Ok (WEBSITE_URL ++ path).
Proof.
  intros Hu Hp Hf. unfold get_absolute_url, self_get_url. rewrite Hu.
  simpl. rewrite Hp. simpl. now rewrite Hf.
Qed.

(** ** Further properties of the meta tags *)

(** X7: the aggregate renderer never reads [meta_copyright]: changing that
    attribute alone leaves the outcome of [get_meta_tafs] as it is. *)
Theorem get_meta_tafs_never_reads_copyright
  (self : MetaTagsBase) (copyright : string) :
  get_meta_tafs {| meta_keywords := meta_keywords self;
                   meta_description := meta_description self;
                   meta_author := meta_author self;
                   meta_copyright := copyright |}
    = get_meta_tafs self.
Proof.
  unfold get_meta_tafs, get_meta_keywords, get_meta_description, get_meta_field.
  cbn [meta_keywords meta_description meta_author].
  destruct (truthy (VStr "keywords") && truthy (VStr (meta_keywords self)));
    [destruct (render_to_string _ _)|]; cbn [bind]; try reflexivity;
    (destruct (truthy (VStr "description") && truthy (VStr (meta_description self)));
     [destruct (render_to_string _ _)|]; reflexivity).
Qed.

(** ** Further properties of the canonical URLs *)

(** X8: for a class that defines only [get_url], [get_url_path()] is the URL
    of [get_url] without scheme and network location, and
    [get_absolute_url()] is that URL itself. *)
Theorem url_base_case_gives_path
  {Self : Type} (fuel : nat) (cls : UrlClass Self) (self : Self)
  (f : Self -> result string) (url : string) :
  def_get_url cls = Some f ->
  def_get_url_path cls = None ->
  f self = Ok url ->
  self_get_url_path (S fuel) cls self = Ok (strip_scheme_and_netloc url) /\
  get_absolute_url (S fuel) cls self = Ok url.
Proof.
  intros Hu Hp Hf. split.
  - unfold self_get_url_path. rewrite Hp. simpl. rewrite Hu. simpl. now rewrite Hf.
  - unfold get_absolute_url, self_get_url. now rewrite Hu.
Qed.

(** X9: an exception of the one base case that a class defines comes out
    of the derived method unchanged: out of [get_absolute_url()] for a class
    with only [get_url_path], out of [get_url_path()] for a class with only
    [get_url]. *)
Theorem base_case_exception_propagates
  {Self : Type} (fuel : nat) (cls : UrlClass Self) (self : Self)
  (f : Self -> result string) (e : exn) :
  f self = Raise e ->
  (def_get_url cls = None -> def_get_url_path cls = Some f ->
   get_absolute_url (S (S fuel)) cls self = Raise e) /\
  (def_get_url cls = Some f -> def_get_url_path cls = None ->
   self_get_url_path (S fuel) cls self = Raise e).
Proof.
  intros Hf. split; intros Hu Hp.
  - unfold get_absolute_url, self_get_url. rewrite Hu. simpl. rewrite Hp. simpl.
    now rewrite Hf.
  - unfold self_get_url_path. rewrite Hp. simpl. rewrite Hu. simpl. now rewrite Hf.
Qed.


(** ** Further properties of the ideas *)

(** X11: the [idea_id] that [Idea.get_url_path] hands to [reverse]
    identifies the primary key: two ideas with the same [idea_id] have the
    same primary key, and the [None] of an idea that is not stored yet is
    the [idea_id] of no stored idea. *)
Theorem str_pk_injective (self other : Idea) :
  str_pk self = str_pk other -> pk self = pk other.
Proof.
  unfold str_pk, str_of_nat. intros H.
  apply (f_equal NilEmpty.uint_of_string) in H.
  destruct (pk self) as [n|], (pk other) as [m|];
    rewrite ?NilEmpty.usu in H; simpl in H; try discriminate; [|reflexivity].
  injection H as H. apply DecimalNat.Unsigned.to_uint_inj in H. now subst.
Qed.

End Models.

(** ** The statements on explicit inputs *)

Lemma ideas_models_load_fails_witness :
  load_ideas_models (fun _ => Ok tt) (fun _ => Ok tt)
    = Raise (SyntaxError "'return' outside function" 66).
Proof.
  apply (ideas_models_load_fails (fun _ => Ok tt) (fun _ => Ok tt)); reflexivity.
Defined.

Lemma get_meta_field_needs_name_and_content_witness :
  get_meta_field sample_render_to_string blank_tags (VStr "") (VStr "a,b") = Ok "" /\
  get_meta_field sample_render_to_string blank_tags (VStr "keywords") (VStr "a,b")
    = Ok "<meta name='keywords' content='a,b'>" /\
  truthy (VStr "keywords") = true /\ truthy (VStr "a,b") = true.
Proof.
  split.
  - apply (proj1 (get_meta_field_needs_name_and_content
                    sample_render_to_string blank_tags (VStr "") (VStr "a,b"))).
    reflexivity.
  - split; [reflexivity|].
    apply (proj2 (get_meta_field_needs_name_and_content
                    sample_render_to_string blank_tags (VStr "keywords") (VStr "a,b"))
                 "<meta name='keywords' content='a,b'>").
    + reflexivity.
    + discriminate.
Defined.

Lemma neither_base_case_witness :
  get_absolute_url sample_WEBSITE_URL (fun url => url) 2 (bare_class Idea) {| pk := Some 1 |}
    = Raise NotImplementedError /\
  self_get_url_path sample_WEBSITE_URL (fun url => url) 1 (bare_class Idea) {| pk := Some 1 |}
    = Raise NotImplementedError.
Proof.
  apply (neither_base_case_raises_not_implemented
           sample_WEBSITE_URL (fun url => url) 0 (bare_class Idea) {| pk := Some 1 |});
    reflexivity.
Defined.

Lemma path_base_case_witness :
  Idea_get_url_path sample_reverse {| pk := Some 1 |} = Ok "/ideas/1/" /\
  get_absolute_url sample_WEBSITE_URL (fun url => url) 2
                   (path_only_class sample_reverse) {| pk := Some 1 |}
    = Ok (sample_WEBSITE_URL ++ "/ideas/1/").
Proof.
  split; [reflexivity|].
  apply (path_base_case_gives_absolute_url
           sample_WEBSITE_URL (fun url => url) 0
           (path_only_class sample_reverse) {| pk := Some 1 |}
           (Idea_get_url_path sample_reverse) "/ideas/1/");
    reflexivity.
Defined.

(** ** The further properties on explicit inputs *)

Lemma url_base_case_witness :
  let strip := fun url : string =>
    substring (String.length sample_WEBSITE_URL) (String.length url) url in
  let cls := {| def_get_url := Some (fun _ : Idea => Ok "https://example.com/ideas/1/");
                def_get_url_path := None |} in
  self_get_url_path sample_WEBSITE_URL strip 1 cls {| pk := Some 1 |} = Ok "/ideas/1/" /\
  get_absolute_url sample_WEBSITE_URL strip 1 cls {| pk := Some 1 |}
    = Ok "https://example.com/ideas/1/".
Proof.
  intros strip cls.
  apply (url_base_case_gives_path sample_WEBSITE_URL strip 0 cls {| pk := Some 1 |}
           (fun _ => Ok "https://example.com/ideas/1/") "https://example.com/ideas/1/");
    reflexivity.
Defined.

Lemma base_case_exception_witness :
  let no_route := fun (_ : string) (_ : list (string * string)) =>
                    @Raise string NoReverseMatch in
  get_absolute_url sample_WEBSITE_URL (fun url => url) 2
                   (path_only_class no_route) {| pk := None |}
    = Raise NoReverseMatch.
Proof.
  intros no_route.
  apply (proj1 (base_case_exception_propagates
                  sample_WEBSITE_URL (fun url => url) 0
                  (path_only_class no_route) {| pk := None |}
                  (Idea_get_url_path no_route) NoReverseMatch eq_refl));
    reflexivity.
Defined.

Lemma str_pk_injective_witness :
  str_pk {| pk := Some 42 |} = "42" /\
  pk {| pk := Some 42 |} = pk {| pk := Some 42 |}.
Proof.
  split; [reflexivity|].
  apply (str_pk_injective {| pk := Some 42 |} {| pk := Some 42 |}). reflexivity.
Defined.
